(** * agent-os: the packaging manifest [setup.py]

    The repository consists of one script, [setup.py], that calls
    [setuptools.setup] with keyword arguments.  Two of them are computed
    ([long_description] reads README.md, [packages] calls [find_packages]);
    the others are string literals.

    The development has these parts:
    - [Pep440]: release versions and version specifiers, the language of the
      strings given as [version] and [python_requires];
    - [Pep508]: distribution names and requirement specifiers, the language
      of [name] and [install_requires];
    - [SetupPy]: the script itself, as a computation in a small
      state-and-exception monad over a trace of external calls, with a
      concrete packaging tool, a concrete text layer and some worlds in
      [SetupPy.Demo];
    - [Pep440Facts], [SetupPyFacts], [SetupPyRuns]: the order on releases,
      and what every run of the script does. *)

From Stdlib Require Import String Ascii List Arith PeanoNat Bool Lia.
Import ListNotations.
Open Scope string_scope.

(** ** Characters and string splitting *)

Module Chars.

Definition between (lo hi : nat) (c : ascii) : bool :=
  let n := nat_of_ascii c in ((lo <=? n) && (n <=? hi))%nat.

Definition is_digit (c : ascii) : bool := between 48 57 c.
Definition is_upper (c : ascii) : bool := between 65 90 c.
Definition is_lower (c : ascii) : bool := between 97 122 c.
Definition is_alnum (c : ascii) : bool := is_digit c || is_upper c || is_lower c.

Definition digit_value (c : ascii) : nat := nat_of_ascii c - 48.

(** [split_on sep s]: the fields of [s] between occurrences of [sep],
    like Python's [s.split(sep)]: always at least one field. *)
Fixpoint split_on (sep : ascii) (s : string) : list string :=
  match s with
  | EmptyString => [EmptyString]
  | String c s' =>
      if Ascii.eqb c sep then EmptyString :: split_on sep s'
      else match split_on sep s' with
           | [] => [String c EmptyString]
           | f :: fs => String c f :: fs
           end
  end.

(** The longest prefix of [s] whose characters satisfy [p], and the rest. *)
Fixpoint span (p : ascii -> bool) (s : string) : string * string :=
  match s with
  | EmptyString => (EmptyString, EmptyString)
  | String c s' =>
      if p c then let (a, b) := span p s' in (String c a, b)
      else (EmptyString, s)
  end.

Fixpoint all_chars (p : ascii -> bool) (s : string) : bool :=
  match s with
  | EmptyString => true
  | String c s' => p c && all_chars p s'
  end.

Fixpoint last_char (s : string) : option ascii :=
  match s with
  | EmptyString => None
  | String c EmptyString => Some c
  | String _ s' => last_char s'
  end.

(** All the elements of a list of optional values, if none is missing. *)
Fixpoint sequence {A : Type} (l : list (option A)) : option (list A) :=
  match l with
  | [] => Some []
  | None :: _ => None
  | Some x :: l' =>
      match sequence l' with
      | Some xs => Some (x :: xs)
      | None => None
      end
  end.

End Chars.

(** ** Versions and version specifiers

    [version="0.1.0"], [python_requires=">=3.8"] and the tail of
    ["pyyaml>=6.0"] are read by the packaging tool, not by the script: no
    code of the repository parses them.  Their grammar and meaning are those
    of the packaging standard for versions; the part modelled here is final
    releases [N(.N)*] and the six comparison operators, without white space.
    A string accepted here is accepted by the tool. *)

Module Pep440.
Import Chars.

(** A final release: its numeric segments, most significant first. *)
Definition release := list nat.

Fixpoint digits_value (acc : nat) (s : string) : nat :=
  match s with
  | EmptyString => acc
  | String c s' => digits_value (10 * acc + digit_value c) s'
  end.

Definition parse_segment (s : string) : option nat :=
  match s with
  | EmptyString => None
  | _ => if all_chars is_digit s then Some (digits_value 0 s) else None
  end.

Definition parse_release (s : string) : option release :=
  sequence (map parse_segment (split_on "." s)).

Definition valid_version (s : string) : bool :=
  match parse_release s with Some _ => true | None => false end.

(** Releases compare segment by segment, the shorter one padded with
    zeros: 3.8 and 3.8.0 are the same release. *)
Definition all_zero (l : release) : bool := forallb (Nat.eqb 0) l.

Fixpoint cmp_release (a b : release) : comparison :=
  match a, b with
  | [], [] => Eq
  | _ :: _, [] => if all_zero a then Eq else Gt
  | [], _ :: _ => if all_zero b then Eq else Lt
  | x :: a', y :: b' =>
      match Nat.compare x y with
      | Eq => cmp_release a' b'
      | c => c
      end
  end.

Definition release_le (a b : release) : Prop := cmp_release a b <> Gt.

Inductive operator := OpGe | OpLe | OpGt | OpLt | OpEq | OpNe.

Definition clause := (operator * release)%type.
Definition specifier_set := list clause.

Definition parse_operator (s : string) : option (operator * string) :=
  match s with
  | String ">" (String "=" r) => Some (OpGe, r)
  | String "<" (String "=" r) => Some (OpLe, r)
  | String "=" (String "=" r) => Some (OpEq, r)
  | String "!" (String "=" r) => Some (OpNe, r)
  | String ">" r => Some (OpGt, r)
  | String "<" r => Some (OpLt, r)
  | _ => None
  end.

Definition parse_clause (s : string) : option clause :=
  match parse_operator s with
  | Some (op, r) =>
      match parse_release r with
      | Some v => Some (op, v)
      | None => None
      end
  | None => None
  end.

(** A comma-separated list of clauses; the empty string is the empty set. *)
Definition parse_specifier_set (s : string) : option specifier_set :=
  match s with
  | EmptyString => Some []
  | _ => sequence (map parse_clause (split_on "," s))
  end.

Definition satisfies_clause (v : release) (c : clause) : bool :=
  let (op, b) := c in
  match op, cmp_release v b with
  | OpGe, Lt => false | OpGe, _ => true
  | OpLe, Gt => false | OpLe, _ => true
  | OpGt, Gt => true  | OpGt, _ => false
  | OpLt, Lt => true  | OpLt, _ => false
  | OpEq, Eq => true  | OpEq, _ => false
  | OpNe, Eq => false | OpNe, _ => true
  end.

(** A version satisfies a set when it satisfies every clause. *)
Definition satisfies (spec : specifier_set) (v : release) : bool :=
  forallb (satisfies_clause v) spec.

(** Some release is at least as large as every release the set admits. *)
Definition bounded_above (spec : specifier_set) : Prop :=
  exists u, forall v, satisfies spec v = true -> release_le v u.

(** [lo] is admitted and nothing smaller is. *)
Definition least_admitted (spec : specifier_set) (lo : release) : Prop :=
  satisfies spec lo = true /\
  forall v, satisfies spec v = true -> release_le lo v.

End Pep440.

(** ** Distribution names and requirement specifiers *)

Module Pep508.
Import Chars.

Definition is_name_char (c : ascii) : bool :=
  is_alnum c || Ascii.eqb c "." || Ascii.eqb c "_" || Ascii.eqb c "-".

(** A name is letters, digits, [.], [_] and [-], and starts and ends with a
    letter or a digit. *)
Definition valid_name (s : string) : bool :=
  match s with
  | EmptyString => false
  | String c _ =>
      is_alnum c && all_chars is_name_char s &&
      match last_char s with Some d => is_alnum d | None => false end
  end.

Record requirement := {
  req_name : string;
  req_spec : Pep440.specifier_set
}.

(** [name] followed by a version specifier set (no extras, no marker). *)
Definition parse_requirement (s : string) : option requirement :=
  let (n, rest) := span is_name_char s in
  if valid_name n then
    match Pep440.parse_specifier_set rest with
    | Some spec => Some {| req_name := n; req_spec := spec |}
    | None => None
    end
  else None.

Definition valid_requirement (s : string) : bool :=
  match parse_requirement s with Some _ => true | None => false end.

End Pep508.

(** ** The script *)

Module SetupPy.

(** Exceptions a run can end with.  The first four are raised by the
    built-in [open] and by [read]; [setup] may raise anything. *)
Inductive exn :=
| FileNotFoundError (path : string)
| PermissionError (path : string)
| IsADirectoryError (path : string)
| UnicodeDecodeError (path : string)
| DistutilsError (msg : string).

(** The exceptions of reading a file: the OS errors of [open] and the
    decoding error of [read]. *)
Definition is_read_failure (e : exn) : bool :=
  match e with
  | FileNotFoundError _ | PermissionError _
  | IsADirectoryError _ | UnicodeDecodeError _ => true
  | DistutilsError _ => false
  end.

(** Raw bytes, as a file holds them. *)
Definition bytes := string.

(** What a path of the working directory holds on disk. *)
Inductive entry :=
| File (content : bytes)
| NoAccess                   (* a file the process may not read *)
| Dir.

(** What a reader in text mode finds at a path. *)
Inductive node :=
| Text (contents : string)   (* a readable file that decodes as text *)
| Undecodable                (* a readable file that is not text *)
| Unreadable                 (* a file the process may not read *)
| Directory.

Definition filesystem := string -> option node.

Definition is_cr (c : ascii) : bool := Ascii.eqb c "013".
Definition is_lf (c : ascii) : bool := Ascii.eqb c "010".
Definition not_cr (c : ascii) : bool := negb (is_cr c).

(** What [read] does to line ends in text mode with the default
    [newline=None]: a carriage return followed by a line feed, and a
    carriage return alone, become one line feed. *)
Fixpoint universal_newlines (s : string) : string :=
  match s with
  | EmptyString => EmptyString
  | String c s' =>
      if is_cr c then
        match s' with
        | EmptyString => String "010" EmptyString
        | String c' s'' =>
            if is_lf c' then String "010" (universal_newlines s'')
            else String "010" (universal_newlines s')
        end
      else String c (universal_newlines s')
  end.

(** The keyword arguments of [setup], by their names in the script. *)
Record Config := {
  name : string;
  version : string;
  author : string;
  description : string;
  long_description : string;
  long_description_content_type : string;
  url : string;
  packages : list string;
  python_requires : string;
  install_requires : list string
}.

(** External calls, in the order they are made. *)
Inductive event :=
| EvOpen (path : string)
| EvRead (path : string)
| EvFindPackages
| EvSetup (cfg : Config).

Definition is_setup_call (e : event) : bool :=
  match e with EvSetup _ => true | _ => false end.

Definition setup_calls (t : list event) : list event := filter is_setup_call t.

Definition setup_args (t : list event) : list Config :=
  flat_map (fun e => match e with EvSetup c => [c] | _ => [] end) t.

(** The calls made up to the point where reading README.md raises. *)
Definition failed_read_events (n : option node) : list event :=
  match n with
  | Some Undecodable => [EvOpen "README.md"; EvRead "README.md"]
  | _ => [EvOpen "README.md"]
  end.

(** The calls of a run that reaches [setup]. *)
Definition full_events (cfg : Config) : list event :=
  [EvOpen "README.md"; EvRead "README.md"; EvFindPackages; EvSetup cfg].

Section Script.

(** The directory tree as [find_packages] sees it, and the state [setup]
    acts on (the build directory, the metadata it writes). *)
Variable Layout : Type.
Variable PkgState : Type.

(** The two names imported from setuptools.  [find_packages()] walks the
    working directory; [setup] builds the package or raises. *)
Variable find_packages : Layout -> list string.
Variable setup : Config -> PkgState -> (exn + unit) * PkgState.

(** The text layer of the interpreter.  [open] is called without
    [encoding=], so the file is decoded in the encoding the locale selects,
    which the interpreter works out from the environment variables.
    [decode] gives [None] on bytes that are not valid in the encoding. *)
Variable Encoding : Type.
Variable locale_encoding : (string -> option string) -> Encoding.
Variable decode : Encoding -> bytes -> option string.

(** Everything a run can observe.  The script reads [disk] at README.md,
    [environ] through the locale's encoding, and [layout] through
    [find_packages]; the other fields are there to be ignored. *)
Record World := {
  disk : string -> option entry;
  layout : Layout;
  environ : string -> option string;
  clock : nat;
  seed : nat
}.

(** An open text file: its path, its bytes, and the encoding fixed when it
    was opened. *)
Record file := {
  file_path : string;
  file_bytes : bytes;
  file_encoding : Encoding
}.

(** What a reader in text mode finds in an entry, in encoding [enc]. *)
Definition text_view (enc : Encoding) (e : option entry) : option node :=
  match e with
  | None => None
  | Some NoAccess => Some Unreadable
  | Some Dir => Some Directory
  | Some (File b) =>
      match decode enc b with
      | Some d => Some (Text (universal_newlines d))
      | None => Some Undecodable
      end
  end.

(** The working directory as text-mode readers of world [w] find it. *)
Definition fs (w : World) : filesystem :=
  fun path => text_view (locale_encoding (environ w)) (disk w path).

Record St := {
  pkg : PkgState;
  trace : list event
}.

(** Computations that read the world, change the state and may raise.  The
    state at the point of a raise is kept. *)
Definition M (A : Type) : Type := World -> St -> (exn + A) * St.

Definition ret {A} (x : A) : M A := fun _ s => (inr x, s).

Definition bind {A B} (m : M A) (k : A -> M B) : M B :=
  fun w s =>
    match m w s with
    | (inl e, s') => (inl e, s')
    | (inr x, s') => k x w s'
    end.

Definition raise {A} (e : exn) : M A := fun _ s => (inl e, s).

Definition ask : M World := fun w s => (inr w, s).

Definition emit (e : event) : M unit :=
  fun _ s => (inr tt, {| pkg := pkg s; trace := trace s ++ [e] |}).

Notation "x <- m ;; k" := (bind m (fun x => k))
  (at level 100, m at next level, right associativity).
Notation "m ;;; k" := (bind m (fun _ => k))
  (at level 100, right associativity).

(** [open(path)]: text mode, for reading, no [encoding=], so in the
    locale's encoding. *)
Definition py_open (path : string) : M file :=
  emit (EvOpen path) ;;;
  w <- ask ;;
  match disk w path with
  | None => raise (FileNotFoundError path)
  | Some NoAccess => raise (PermissionError path)
  | Some Dir => raise (IsADirectoryError path)
  | Some (File b) =>
      ret {| file_path := path;
             file_bytes := b;
             file_encoding := locale_encoding (environ w) |}
  end.

(** [f.read()]: the whole file, decoded, line ends translated. *)
Definition py_read (f : file) : M string :=
  emit (EvRead (file_path f)) ;;;
  match decode (file_encoding f) (file_bytes f) with
  | Some d => ret (universal_newlines d)
  | None => raise (UnicodeDecodeError (file_path f))
  end.

Definition call_find_packages : M (list string) :=
  emit EvFindPackages ;;;
  w <- ask ;;
  ret (find_packages (layout w)).

Definition call_setup (cfg : Config) : M unit :=
  emit (EvSetup cfg) ;;;
  fun _ s =>
    let (r, p) := setup cfg (pkg s) in
    (r, {| pkg := p; trace := trace s |}).

(** The script: the keyword arguments are evaluated from top to bottom,
    then [setup] is called. *)
Definition script : M unit :=
  let name_ := "agent-os" in
  let version_ := "0.1.0" in
  let author_ := "Your Name" in
  let description_ := "Canonical naming and discovery system for AI agents" in
  long_description_ <- (f <- py_open "README.md" ;; py_read f) ;;
  let long_description_content_type_ := "text/markdown" in
  let url_ := "https://github.com/yourusername/agent-os" in
  packages_ <- call_find_packages ;;
  let python_requires_ := ">=3.8" in
  let install_requires_ := ["pyyaml>=6.0"] in
  call_setup
    {| name := name_;
       version := version_;
       author := author_;
       description := description_;
       long_description := long_description_;
       long_description_content_type := long_description_content_type_;
       url := url_;
       packages := packages_;
       python_requires := python_requires_;
       install_requires := install_requires_ |}.

(** A run of the script in world [w], from packaging state [p]. *)
Definition run (w : World) (p : PkgState) : (exn + unit) * St :=
  script w {| pkg := p; trace := [] |}.

Definition outcome (w : World) (p : PkgState) : exn + unit := fst (run w p).
Definition events (w : World) (p : PkgState) : list event := trace (snd (run w p)).
Definition final_pkg (w : World) (p : PkgState) : PkgState := pkg (snd (run w p)).

(** Every run is one call of [setup], with arguments that are literals:
    the same configuration in every world. *)
Definition every_run_one_literal_call : Prop :=
  exists cfg, forall w p, setup_args (events w p) = [cfg].

(** Every datum given to [setup] is a literal of the script: the
    configuration is the same in every run that calls [setup]. *)
Definition only_literal_data : Prop :=
  exists cfg0, forall w p cfg, In cfg (setup_args (events w p)) -> cfg = cfg0.

(** The arguments of [setup] are settled by the contents of README.md and
    the layout of the package directories, and by nothing else. *)
Definition args_settled_by_readme_and_layout : Prop :=
  forall w1 w2 p1 p2,
    disk w1 "README.md" = disk w2 "README.md" ->
    layout w1 = layout w2 ->
    setup_args (events w1 p1) = setup_args (events w2 p2).

(** What reading README.md as text gives in a world: its contents, or the
    exception of [open] or [read]. *)
Definition read_text (n : option node) (path : string) : exn + string :=
  match n with
  | None => inl (FileNotFoundError path)
  | Some Unreadable => inl (PermissionError path)
  | Some Directory => inl (IsADirectoryError path)
  | Some Undecodable => inl (UnicodeDecodeError path)
  | Some (Text t) => inr t
  end.

(** README.md is present and readable. *)
Definition readme_readable (w : World) : bool :=
  match fs w "README.md" with
  | Some (Text _) => true
  | _ => false
  end.

(** The configuration the script builds from the two computed arguments. *)
Definition config (readme : string) (pkgs : list string) : Config :=
  {| name := "agent-os";
     version := "0.1.0";
     author := "Your Name";
     description := "Canonical naming and discovery system for AI agents";
     long_description := readme;
     long_description_content_type := "text/markdown";
     url := "https://github.com/yourusername/agent-os";
     packages := pkgs;
     python_requires := ">=3.8";
     install_requires := ["pyyaml>=6.0"] |}.

End Script.

Arguments disk {Layout} _ _.
Arguments layout {Layout} _.
Arguments environ {Layout} _ _.
Arguments clock {Layout} _.
Arguments seed {Layout} _.
Arguments pkg {PkgState} _.
Arguments trace {PkgState} _.
Arguments text_view {Encoding} _ _ _.
Arguments fs {Layout Encoding} _ _ _ _.
Arguments readme_readable {Layout Encoding} _ _ _.
Arguments run {Layout PkgState} _ _ {Encoding} _ _ _ _.
Arguments outcome {Layout PkgState} _ _ {Encoding} _ _ _ _.
Arguments events {Layout PkgState} _ _ {Encoding} _ _ _ _.
Arguments final_pkg {Layout PkgState} _ _ {Encoding} _ _ _ _.
Arguments every_run_one_literal_call {Layout PkgState} _ _ {Encoding} _ _.
Arguments only_literal_data {Layout PkgState} _ _ {Encoding} _ _.
Arguments args_settled_by_readme_and_layout {Layout PkgState} _ _ {Encoding} _ _.

(** ** A concrete packaging tool, a concrete text layer and some worlds

    The layout is the list of package directories, [find_packages] returns
    it, and [setup] records the metadata it was given.  The text layer knows
    three encodings and holds decoded text as its UTF-8 bytes; the locale is
    worked out as on a POSIX system on which the locales named below are
    installed. *)

Module Demo.

Definition Layout := list string.
Definition PkgState := list Config.

Definition find_packages (l : Layout) : list string := l.

Definition setup (cfg : Config) (p : PkgState) : (exn + unit) * PkgState :=
  (inr tt, cfg :: p).

Inductive Encoding := Utf8 | Latin1 | Ascii.

(** The locale in force: LC_ALL, else LC_CTYPE, else LANG. *)
Definition locale_name (env : string -> option string) : option string :=
  match env "LC_ALL" with
  | Some v => Some v
  | None =>
      match env "LC_CTYPE" with
      | Some v => Some v
      | None => env "LANG"
      end
  end.

Definition is_value (v : string) (o : option string) : bool :=
  match o with Some x => String.eqb x v | None => false end.

(** PYTHONUTF8=1 forces UTF-8.  Otherwise the locale decides; in the C
    locale (or none) the interpreter turns to UTF-8 by itself, unless
    PYTHONUTF8=0 forbids it and leaves ASCII. *)
Definition locale_encoding (env : string -> option string) : Encoding :=
  if is_value "1" (env "PYTHONUTF8") then Utf8
  else
    let loc := locale_name env in
    if is_value "en_US.UTF-8" loc || is_value "C.UTF-8" loc then Utf8
    else if is_value "en_US.ISO-8859-1" loc then Latin1
    else if is_value "0" (env "PYTHONUTF8") then Ascii
    else Utf8.

Definition is_ascii_byte (c : ascii) : bool := Chars.between 0 127 c.
Definition is_continuation (c : ascii) : bool := Chars.between 128 191 c.

(** Well-formed UTF-8: shortest form, no surrogates, at most U+10FFFF. *)
Fixpoint valid_utf8 (b : bytes) : bool :=
  match b with
  | EmptyString => true
  | String c0 r0 =>
      let n := nat_of_ascii c0 in
      if is_ascii_byte c0 then valid_utf8 r0
      else if Chars.between 194 223 c0 then
        match r0 with
        | String c1 r1 => is_continuation c1 && valid_utf8 r1
        | _ => false
        end
      else if Chars.between 224 239 c0 then
        match r0 with
        | String c1 (String c2 r2) =>
            (if n =? 224 then Chars.between 160 191 c1
             else if n =? 237 then Chars.between 128 159 c1
             else is_continuation c1)%nat
            && is_continuation c2 && valid_utf8 r2
        | _ => false
        end
      else if Chars.between 240 244 c0 then
        match r0 with
        | String c1 (String c2 (String c3 r3)) =>
            (if n =? 240 then Chars.between 144 191 c1
             else if n =? 244 then Chars.between 128 143 c1
             else is_continuation c1)%nat
            && is_continuation c2 && is_continuation c3 && valid_utf8 r3
        | _ => false
        end
      else false
  end.

(** Latin-1 bytes as text: a byte above 127 is a code point of two UTF-8
    bytes. *)
Fixpoint latin1_text (b : bytes) : string :=
  match b with
  | EmptyString => EmptyString
  | String c b' =>
      let n := nat_of_ascii c in
      if is_ascii_byte c then String c (latin1_text b')
      else String (ascii_of_nat (192 + n / 64))
             (String (ascii_of_nat (128 + n mod 64)) (latin1_text b'))
  end.

Definition decode (enc : Encoding) (b : bytes) : option string :=
  match enc with
  | Utf8 => if valid_utf8 b then Some b else None
  | Latin1 => Some (latin1_text b)
  | Ascii => if Chars.all_chars is_ascii_byte b then Some b else None
  end.

Definition no_environ : string -> option string := fun _ => None.

Definition only_readme (b : bytes) : string -> option entry :=
  fun path => if String.eqb path "README.md" then Some (File b) else None.

(** A checkout with a README and one package. *)
Definition world_ok : World Layout :=
  {| disk := only_readme "# agent-os";
     layout := ["agent_os"];
     environ := no_environ;
     clock := 0;
     seed := 0 |}.

(** The same README, layout and encoding, everything else different. *)
Definition world_elsewhere : World Layout :=
  {| disk := fun path => if String.eqb path "README.md"
                         then Some (File "# agent-os")
                         else Some (File "other file");
     layout := ["agent_os"];
     environ := fun v => if String.eqb v "LANG" then Some "en_US.UTF-8"
                         else if String.eqb v "HOME" then Some "/home/dev"
                         else None;
     clock := 1200;
     seed := 42 |}.

(** A checkout without README.md. *)
Definition world_missing : World Layout :=
  {| disk := fun _ => None;
     layout := ["agent_os"];
     environ := no_environ;
     clock := 0;
     seed := 0 |}.

(** README.md exists and is not text: the byte FF is in no UTF-8 text. *)
Definition world_binary : World Layout :=
  {| disk := only_readme (String "255" EmptyString);
     layout := ["agent_os"];
     environ := no_environ;
     clock := 0;
     seed := 0 |}.

(** The five bytes of "cafe" with an acute accent, in UTF-8. *)
Definition cafe_utf8 : bytes := "caf" ++ String "195" (String "169" EmptyString).

(** The same five bytes read as Latin-1: six characters, seven bytes. *)
Definition cafe_misread : string :=
  "caf" ++ String "195" (String "131" (String "194" (String "169" EmptyString))).

(** One checkout, three environments. *)
Definition world_utf8_mode : World Layout :=
  {| disk := only_readme cafe_utf8;
     layout := ["agent_os"];
     environ := fun v => if String.eqb v "PYTHONUTF8" then Some "1" else None;
     clock := 0;
     seed := 0 |}.

Definition world_c_locale : World Layout :=
  {| disk := only_readme cafe_utf8;
     layout := ["agent_os"];
     environ := fun v => if String.eqb v "PYTHONUTF8" then Some "0"
                         else if String.eqb v "LC_ALL" then Some "C"
                         else None;
     clock := 0;
     seed := 0 |}.

Definition world_latin1 : World Layout :=
  {| disk := only_readme cafe_utf8;
     layout := ["agent_os"];
     environ := fun v => if String.eqb v "PYTHONUTF8" then Some "0"
                         else if String.eqb v "LC_ALL" then Some "en_US.ISO-8859-1"
                         else None;
     clock := 0;
     seed := 0 |}.

(** A README written with CR LF line ends. *)
Definition world_crlf : World Layout :=
  {| disk := only_readme ("# agent-os" ++ String "013" (String "010" "text"));
     layout := ["agent_os"];
     environ := no_environ;
     clock := 0;
     seed := 0 |}.

(** What [setup] is given in [world_ok]. *)
Definition cfg_ok : Config := config "# agent-os" ["agent_os"].

Definition fs := SetupPy.fs (Layout:=Layout) locale_encoding decode.
Definition readme_readable :=
  SetupPy.readme_readable (Layout:=Layout) locale_encoding decode.
Definition run := SetupPy.run find_packages setup locale_encoding decode.
Definition outcome := SetupPy.outcome find_packages setup locale_encoding decode.
Definition events := SetupPy.events find_packages setup locale_encoding decode.
Definition final_pkg := SetupPy.final_pkg find_packages setup locale_encoding decode.

End Demo.

End SetupPy.

(** ** The order on releases *)

Module Pep440Facts.
Import Pep440.

Lemma cmp_nil_l b : cmp_release [] b = if all_zero b then Eq else Lt.
Proof. destruct b; reflexivity. Qed.

Lemma cmp_nil_r a : cmp_release a [] = if all_zero a then Eq else Gt.
Proof. destruct a; reflexivity. Qed.

Lemma all_zero_cons x l : all_zero (x :: l) = Nat.eqb 0 x && all_zero l.
Proof. reflexivity. Qed.

(** Swapping the arguments reverses the result. *)
Lemma cmp_release_antisym a b : cmp_release a b = CompOpp (cmp_release b a).
Proof.
  revert b; induction a as [|x a IH]; intros [|y b].
  - reflexivity.
  - rewrite cmp_nil_l, cmp_nil_r. now destruct (all_zero (y :: b)).
  - rewrite cmp_nil_l, cmp_nil_r. now destruct (all_zero (x :: a)).
  - simpl. rewrite (Nat.compare_antisym x y).
    destruct (Nat.compare x y); simpl; auto.
Qed.

(** Trailing zeros do not count: a release of zeros behaves as the empty one. *)
Lemma cmp_zeros_l a c : all_zero a = true -> cmp_release a c = cmp_release [] c.
Proof.
  revert c; induction a as [|x a IH]; intros c Hz; [reflexivity|].
  rewrite all_zero_cons in Hz. apply andb_prop in Hz as [Hx Ha].
  apply Nat.eqb_eq in Hx; subst x.
  destruct c as [|y c].
  - rewrite cmp_nil_r, all_zero_cons, Ha. reflexivity.
  - simpl cmp_release at 1. destruct y as [|y].
    + simpl Nat.compare. cbv iota. rewrite (IH c Ha), !cmp_nil_l. reflexivity.
    + reflexivity.
Qed.

Lemma cmp_zeros_r a c : all_zero c = true -> cmp_release a c = cmp_release a [].
Proof.
  intros Hz. rewrite (cmp_release_antisym a c), (cmp_release_antisym a []).
  now rewrite (cmp_zeros_l c a Hz).
Qed.

Lemma release_le_refl a : release_le a a.
Proof.
  unfold release_le. induction a as [|x a IH]; simpl; [discriminate|].
  now rewrite Nat.compare_refl.
Qed.

Lemma release_le_nil_l c : release_le [] c.
Proof. unfold release_le. rewrite cmp_nil_l. now destruct (all_zero c). Qed.

Lemma release_le_nil_r a : release_le a [] -> all_zero a = true.
Proof.
  unfold release_le. rewrite cmp_nil_r.
  destruct (all_zero a); [reflexivity | intros H; now elim H].
Qed.

Lemma release_le_trans a b c :
  release_le a b -> release_le b c -> release_le a c.
Proof.
  revert b c; induction a as [|x a IH]; intros b c Hab Hbc.
  - apply release_le_nil_l.
  - destruct b as [|y b].
    + apply release_le_nil_r in Hab. unfold release_le.
      rewrite (cmp_zeros_l _ c Hab). apply release_le_nil_l.
    + destruct c as [|z c].
      * apply release_le_nil_r in Hbc. unfold release_le in *.
        now rewrite (cmp_zeros_r (x :: a) (y :: b) Hbc) in Hab.
      * unfold release_le in *. simpl in *.
        destruct (Nat.compare_spec x y) as [Exy|Lxy|Gxy];
          destruct (Nat.compare_spec y z) as [Eyz|Lyz|Gyz];
          try (now elim Hab); try (now elim Hbc); subst.
        -- rewrite Nat.compare_refl. now apply (IH b c).
        -- now rewrite (proj2 (Nat.compare_lt_iff _ _) Lyz).
        -- now rewrite (proj2 (Nat.compare_lt_iff _ _) Lxy).
        -- assert (Hxz : x < z) by lia.
           now rewrite (proj2 (Nat.compare_lt_iff _ _) Hxz).
Qed.

(** What a single [>=] clause admits. *)
Lemma satisfies_ge b v : satisfies [(OpGe, b)] v = true <-> release_le b v.
Proof.
  unfold satisfies, release_le; simpl.
  rewrite (cmp_release_antisym b v).
  destruct (cmp_release v b); simpl; split; intros H;
    try discriminate; try reflexivity; now elim H.
Qed.

Lemma ge_least_admitted b : least_admitted [(OpGe, b)] b.
Proof.
  split.
  - apply satisfies_ge, release_le_refl.
  - intros v Hv. now apply satisfies_ge.
Qed.

Lemma ge_upward_closed b v v' :
  satisfies [(OpGe, b)] v = true -> release_le v v' ->
  satisfies [(OpGe, b)] v' = true.
Proof.
  rewrite !satisfies_ge. apply release_le_trans.
Qed.

(** For every candidate bound [u] a single [>=] clause admits a release
    above it: one whose first segment exceeds those of [b] and [u]. *)
Lemma ge_not_bounded_above b : ~ bounded_above [(OpGe, b)].
Proof.
  intros [u Hu].
  set (v := [S (hd 0 b + hd 0 u)]).
  assert (Hv : satisfies [(OpGe, b)] v = true).
  { apply satisfies_ge. unfold release_le, v.
    destruct b as [|y b]; [now rewrite cmp_nil_l|].
    simpl. assert (H : y < S (y + hd 0 u)) by lia.
    now rewrite (proj2 (Nat.compare_lt_iff _ _) H). }
  apply Hu in Hv. apply Hv. unfold v.
  destruct u as [|z u]; [reflexivity|].
  cbn [cmp_release hd]. assert (H : z < S (hd 0 b + z)) by lia.
  now rewrite (proj2 (Nat.compare_gt_iff _ _) H).
Qed.

End Pep440Facts.

(** ** Properties of the script *)

Module SetupPyFacts.
Import SetupPy.

(** ** Line ends *)

Lemma universal_newlines_cons (c : ascii) (s : string) :
  universal_newlines (String c s) =
  if is_cr c then
    match s with
    | EmptyString => String "010" EmptyString
    | String c' s'' =>
        if is_lf c' then String "010" (universal_newlines s'')
        else String "010" (universal_newlines s)
    end
  else String c (universal_newlines s).
Proof. reflexivity. Qed.

Lemma lf_not_cr : not_cr "010" = true.
Proof. reflexivity. Qed.

(** No carriage return is left in translated text. *)
Lemma universal_newlines_no_cr (s : string) :
  Chars.all_chars not_cr (universal_newlines s) = true.
Proof.
  enough (H : Chars.all_chars not_cr (universal_newlines s) = true /\
              forall c, Chars.all_chars not_cr
                          (universal_newlines (String c s)) = true)
    by apply H.
  induction s as [|a s [IH1 IH2]].
  - split; [reflexivity|]. intros c. rewrite universal_newlines_cons.
    destruct (is_cr c) eqn:Hc; [reflexivity|].
    cbn. unfold not_cr. now rewrite Hc.
  - split; [apply IH2|]. intros c. rewrite universal_newlines_cons.
    destruct (is_cr c) eqn:Hc.
    + destruct (is_lf a).
      * cbn [Chars.all_chars]. now rewrite lf_not_cr, IH1.
      * cbn [Chars.all_chars]. now rewrite lf_not_cr, IH2.
    + cbn [Chars.all_chars]. unfold not_cr at 1. now rewrite Hc, IH2.
Qed.

(** Text without a carriage return is left as it is. *)
Lemma universal_newlines_id (s : string) :
  Chars.all_chars not_cr s = true -> universal_newlines s = s.
Proof.
  induction s as [|c s IH]; [reflexivity|].
  cbn [Chars.all_chars]. intros H. apply andb_prop in H as [Hc Hs].
  rewrite universal_newlines_cons.
  unfold not_cr in Hc. apply negb_true_iff in Hc. rewrite Hc.
  now rewrite (IH Hs).
Qed.

Section Properties.

Variable Layout : Type.
Variable PkgState : Type.
Variable find_packages : Layout -> list string.
Variable setup : Config -> PkgState -> (exn + unit) * PkgState.
Variable Encoding : Type.
Variable locale_encoding : (string -> option string) -> Encoding.
Variable decode : Encoding -> bytes -> option string.

Local Abbreviation fs := (SetupPy.fs (Layout:=Layout) locale_encoding decode).
Local Abbreviation readme_readable :=
  (SetupPy.readme_readable (Layout:=Layout) locale_encoding decode).
Local Abbreviation run :=
  (SetupPy.run find_packages setup locale_encoding decode).
Local Abbreviation outcome :=
  (SetupPy.outcome find_packages setup locale_encoding decode).
Local Abbreviation events :=
  (SetupPy.events find_packages setup locale_encoding decode).
Local Abbreviation final_pkg :=
  (SetupPy.final_pkg find_packages setup locale_encoding decode).

(** Every run, computed: either reading README.md raises and the run ends
    there, or the four calls are made in order and the run ends as [setup]
    does. *)
Lemma run_spec (w : World Layout) (p : PkgState) :
  run w p =
  match read_text (fs w "README.md") "README.md" with
  | inl e =>
      (inl e, {| pkg := p; trace := failed_read_events (fs w "README.md") |})
  | inr t =>
      let cfg := config t (find_packages (layout w)) in
      (fst (setup cfg p),
       {| pkg := snd (setup cfg p); trace := full_events cfg |})
  end.
Proof.
  unfold read_text, SetupPy.fs, text_view.
  cbv beta iota zeta delta [SetupPy.run script bind py_open py_read
    call_find_packages call_setup emit ask raise ret].
  destruct (disk w "README.md") as [[b| |]|]; try reflexivity.
  cbn. destruct (decode (locale_encoding (environ w)) b) as [d|];
    [|reflexivity].
  cbn. unfold config. now destruct (setup _ p).
Qed.

(** The text-mode view of README.md, from what is on disk. *)
Lemma readme_text_inv (w : World Layout) (t : string) :
  fs w "README.md" = Some (Text t) ->
  exists b d, disk w "README.md" = Some (File b) /\
              decode (locale_encoding (environ w)) b = Some d /\
              t = universal_newlines d.
Proof.
  unfold SetupPy.fs, text_view.
  destruct (disk w "README.md") as [[b| |]|]; try discriminate.
  destruct (decode (locale_encoding (environ w)) b) as [d|] eqn:Hd;
    try discriminate.
  intros H. injection H as <-. now exists b, d.
Qed.

Lemma readable_text (w : World Layout) :
  readme_readable w = true <-> exists t, fs w "README.md" = Some (Text t).
Proof.
  unfold readme_readable. split.
  - destruct (fs w "README.md") as [[t| | |]|]; try discriminate. now exists t.
  - now intros [t ->].
Qed.

Lemma unreadable_raises (w : World Layout) :
  readme_readable w = false ->
  exists e, read_text (fs w "README.md") "README.md" = inl e /\
            is_read_failure e = true.
Proof.
  unfold readme_readable, read_text.
  destruct (fs w "README.md") as [[t| | |]|]; try discriminate; intros _;
    eexists; split; reflexivity.
Qed.

(** A call of [setup] in a run was made with the script's configuration,
    on the text of README.md and the packages found. *)
Lemma setup_call_inv (w : World Layout) (p : PkgState) (cfg : Config) :
  In cfg (setup_args (events w p)) ->
  exists t, fs w "README.md" = Some (Text t) /\
            cfg = config t (find_packages (layout w)) /\
            run w p = (fst (setup cfg p),
                       {| pkg := snd (setup cfg p); trace := full_events cfg |}).
Proof.
  unfold SetupPy.events. rewrite run_spec. unfold read_text.
  destruct (fs w "README.md") as [[t| | |]|]; simpl;
    try (intros []; fail).
  intros [<- | []]. exists t. auto.
Qed.

Lemma failed_read_no_setup (n : option node) :
  setup_args (failed_read_events n) = [] /\
  setup_calls (failed_read_events n) = [] /\
  ~ In EvFindPackages (failed_read_events n).
Proof.
  destruct n as [[t| | |]|]; simpl; repeat split; try reflexivity;
    intros H; repeat (destruct H as [H|H]; try discriminate); exact H.
Qed.

(** The README is read before anything else: every call of [setup] comes
    after [open] and [read] of README.md and after [find_packages]. *)
Lemma readme_read_before_setup (w : World Layout) (p : PkgState) (cfg : Config) :
  In (EvSetup cfg) (events w p) ->
  events w p =
  ([EvOpen "README.md"; EvRead "README.md"; EvFindPackages] ++ [EvSetup cfg])%list.
Proof.
  unfold SetupPy.events. rewrite run_spec. unfold read_text.
  destruct (fs w "README.md") as [[t| | |]|]; simpl; intros H;
    repeat (destruct H as [H|H]; try discriminate); try contradiction.
  now injection H as <-.
Qed.

(** C1: the build succeeds only if README.md is present and readable at the
    path the script opens; when it is missing or unreadable the run ends
    with the exception raised by reading it, a read failure. *)
Theorem build_needs_readme (w : World Layout) (p : PkgState) :
  (outcome w p = inr tt -> readme_readable w = true) /\
  (readme_readable w = false ->
   exists e, outcome w p = inl e /\ is_read_failure e = true /\
             read_text (fs w "README.md") "README.md" = inl e) /\
  hd_error (events w p) = Some (EvOpen "README.md").
Proof.
  unfold SetupPy.outcome, SetupPy.events. rewrite run_spec.
  destruct (readme_readable w) eqn:Hr.
  - apply readable_text in Hr as [t Ht]. rewrite Ht. simpl.
    repeat split; auto. discriminate.
  - destruct (unreadable_raises w Hr) as [e [He Hf]]. rewrite He. simpl.
    repeat split.
    + discriminate.
    + intros _. now exists e.
    + now destruct (fs w "README.md") as [[t| | |]|].
Qed.

(** C8: the README is read while the arguments are evaluated, before
    [setup] is called; when README.md is missing or unreadable the run ends
    with the exception of the read, neither [find_packages] nor [setup] is
    called, and the packaging state is the one the run started from. *)
Theorem unreadable_readme_setup_never_called (w : World Layout) (p : PkgState) :
  readme_readable w = false ->
  exists e, read_text (fs w "README.md") "README.md" = inl e /\
            is_read_failure e = true /\
            outcome w p = inl e /\
            setup_calls (events w p) = [] /\
            setup_args (events w p) = [] /\
            ~ In EvFindPackages (events w p) /\
            final_pkg w p = p.
Proof.
  intros Hr. destruct (unreadable_raises w Hr) as [e [He Hf]].
  exists e. unfold SetupPy.outcome, SetupPy.events, SetupPy.final_pkg.
  rewrite run_spec, He. simpl.
  destruct (failed_read_no_setup (fs w "README.md")) as [Ha [Hc Hn]].
  repeat split; auto.
Qed.

(** Two runs in which text-mode readers find the same README.md, and
    [find_packages] the same layout, make the same calls. *)
Lemma same_text_same_events (w1 w2 : World Layout) (p1 p2 : PkgState) :
  fs w1 "README.md" = fs w2 "README.md" ->
  layout w1 = layout w2 ->
  events w1 p1 = events w2 p2.
Proof.
  intros Hf Hl. unfold SetupPy.events. rewrite !run_spec, Hf, Hl.
  now destruct (read_text (fs w2 "README.md") "README.md").
Qed.

(** C9, amended: two runs that find the same bytes in README.md, in which
    the locale selects the same encoding, and that see the same package
    layout, make the same calls with the same arguments, whatever else
    differs between the worlds (other files, other environment variables,
    clock, seed) and whatever packaging state they start from. *)
Theorem setup_arguments_settled_by_bytes_locale_layout
    (w1 w2 : World Layout) (p1 p2 : PkgState) :
  disk w1 "README.md" = disk w2 "README.md" ->
  locale_encoding (environ w1) = locale_encoding (environ w2) ->
  layout w1 = layout w2 ->
  events w1 p1 = events w2 p2 /\
  setup_args (events w1 p1) = setup_args (events w2 p2).
Proof.
  intros Hd He Hl.
  assert (H : events w1 p1 = events w2 p2).
  { apply same_text_same_events; [|exact Hl].
    unfold SetupPy.fs. now rewrite Hd, He. }
  split; [exact H | now rewrite H].
Qed.

(** C4, amended: a run is a straight line.  Either reading README.md raises,
    the run ends with that exception and [setup] is not called; or the
    script opens and reads README.md, calls [find_packages], and calls
    [setup] once, ending as [setup] ends.  In the call every argument but
    [long_description] and [packages] is the literal of the script. *)
Theorem script_is_straight_line (w : World Layout) (p : PkgState) :
  ((exists e, read_text (fs w "README.md") "README.md" = inl e /\
              events w p = failed_read_events (fs w "README.md") /\
              outcome w p = inl e /\ final_pkg w p = p)
   \/
   (exists t, fs w "README.md" = Some (Text t) /\
              events w p = full_events (config t (find_packages (layout w))) /\
              (outcome w p, final_pkg w p) =
                setup (config t (find_packages (layout w))) p)) /\
  length (setup_calls (events w p)) = (if readme_readable w then 1 else 0) /\
  (forall cfg, In cfg (setup_args (events w p)) ->
               cfg = config (long_description cfg) (packages cfg)).
Proof.
  split; [|split].
  - unfold SetupPy.outcome, SetupPy.events, SetupPy.final_pkg.
    rewrite run_spec. unfold read_text.
    destruct (fs w "README.md") as [[t| | |]|]; simpl;
      try (left; eexists; repeat split; reflexivity).
    right. exists t. repeat split. now destruct (setup _ p).
  - unfold SetupPy.events, readme_readable. rewrite run_spec. unfold read_text.
    now destruct (fs w "README.md") as [[t| | |]|].
  - intros cfg Hin. apply setup_call_inv in Hin as [t [_ [-> _]]]. reflexivity.
Qed.

(** C2: [setup] is given exactly one dependency, ["pyyaml>=6.0"]: the
    distribution pyyaml, with 6.0 the least version admitted. *)
Theorem one_dependency_pyyaml_ge_6_0
    (w : World Layout) (p : PkgState) (cfg : Config) :
  In cfg (setup_args (events w p)) ->
  install_requires cfg = ["pyyaml>=6.0"] /\
  exists r, map Pep508.parse_requirement (install_requires cfg) = [Some r] /\
            Pep508.req_name r = "pyyaml" /\
            Pep508.req_spec r = [(Pep440.OpGe, [6; 0])] /\
            Pep440.least_admitted (Pep508.req_spec r) [6; 0].
Proof.
  intros Hin. apply setup_call_inv in Hin as [t [_ [-> _]]].
  split; [reflexivity|].
  exists {| Pep508.req_name := "pyyaml";
            Pep508.req_spec := [(Pep440.OpGe, [6; 0])] |}.
  repeat split; try reflexivity.
  intros v Hv. now apply Pep440Facts.satisfies_ge.
Qed.

(** C3: [python_requires] is a lower bound only: it parses to a set of
    version clauses that admits 3.8 and nothing below it, admits every
    version above one it admits, and has no upper bound. *)
Theorem python_requires_lower_bound_only
    (w : World Layout) (p : PkgState) (cfg : Config) :
  In cfg (setup_args (events w p)) ->
  exists spec,
    Pep440.parse_specifier_set (python_requires cfg) = Some spec /\
    Pep440.least_admitted spec [3; 8] /\
    (forall v v', Pep440.satisfies spec v = true -> Pep440.release_le v v' ->
                  Pep440.satisfies spec v' = true) /\
    ~ Pep440.bounded_above spec.
Proof.
  intros Hin. apply setup_call_inv in Hin as [t [_ [-> _]]].
  exists [(Pep440.OpGe, [3; 8])]. split; [reflexivity|]. split; [|split].
  - apply Pep440Facts.ge_least_admitted.
  - apply Pep440Facts.ge_upward_closed.
  - apply Pep440Facts.ge_not_bounded_above.
Qed.

(** C5, amended: the data given to [setup] are a flat record of fields.
    Eight are literals of the script: name, version, author, description
    ("Canonical naming and discovery system for AI agents"), the content
    type of the long description, URL, minimum interpreter version and one
    dependency specifier.  Two are not: [long_description] is what [read]
    returned for README.md (its bytes decoded in the locale's encoding, line
    ends translated), and [packages] is what [find_packages] returned.  The
    script does nothing with them but hand them to [setup]: the run makes
    the four calls and ends as [setup] ends. *)
Theorem metadata_literals_and_computed
    (w : World Layout) (p : PkgState) (cfg : Config) :
  In cfg (setup_args (events w p)) ->
  name cfg = "agent-os" /\
  version cfg = "0.1.0" /\
  author cfg = "Your Name" /\
  description cfg = "Canonical naming and discovery system for AI agents" /\
  long_description_content_type cfg = "text/markdown" /\
  url cfg = "https://github.com/yourusername/agent-os" /\
  python_requires cfg = ">=3.8" /\
  install_requires cfg = ["pyyaml>=6.0"] /\
  length (install_requires cfg) = 1 /\
  (exists b d, disk w "README.md" = Some (File b) /\
               decode (locale_encoding (environ w)) b = Some d /\
               long_description cfg = universal_newlines d) /\
  packages cfg = find_packages (layout w) /\
  events w p = full_events cfg /\
  (outcome w p, final_pkg w p) = setup cfg p.
Proof.
  intros Hin. apply setup_call_inv in Hin as [t [Ht [Hc Hrun]]].
  apply readme_text_inv in Ht as [b [d [Hb [Hd Ht]]]].
  unfold SetupPy.outcome, SetupPy.events, SetupPy.final_pkg. rewrite Hrun.
  subst cfg. cbn [name version author description long_description
    long_description_content_type url packages python_requires
    install_requires config length fst snd pkg trace].
  repeat split.
  - now exists b, d.
  - now destruct (setup _ p).
Qed.

(** C6: the name, the version and the dependency given to [setup] are
    well formed: a distribution name, a release version, a requirement
    specifier. *)
Theorem declared_strings_well_formed
    (w : World Layout) (p : PkgState) (cfg : Config) :
  In cfg (setup_args (events w p)) ->
  Pep508.valid_name (name cfg) = true /\
  Pep440.valid_version (version cfg) = true /\
  forallb Pep508.valid_requirement (install_requires cfg) = true.
Proof.
  intros Hin. apply setup_call_inv in Hin as [t [_ [-> _]]].
  repeat split; reflexivity.
Qed.

(** C10: the author is "Your Name", the URL is
    "https://github.com/yourusername/agent-os", and [python_requires] is
    ">=3.8": at least release 3.8. *)
Theorem placeholder_author_url_python_3_8
    (w : World Layout) (p : PkgState) (cfg : Config) :
  In cfg (setup_args (events w p)) ->
  author cfg = "Your Name" /\
  url cfg = "https://github.com/yourusername/agent-os" /\
  python_requires cfg = ">=3.8" /\
  Pep440.parse_specifier_set (python_requires cfg) =
    Some [(Pep440.OpGe, [3; 8])].
Proof.
  intros Hin. apply setup_call_inv in Hin as [t [_ [-> _]]].
  repeat split; reflexivity.
Qed.

End Properties.

(** ** Runs of the script with the concrete tool *)

Example run_ok :
  Demo.outcome Demo.world_ok [] = inr tt /\
  Demo.final_pkg Demo.world_ok [] = [config "# agent-os" ["agent_os"]] /\
  Demo.events Demo.world_ok [] =
    full_events (config "# agent-os" ["agent_os"]).
Proof. repeat split; reflexivity. Qed.

Example run_missing :
  Demo.run Demo.world_missing [] =
    (inl (FileNotFoundError "README.md"),
     {| pkg := []; trace := [EvOpen "README.md"] |}).
Proof. reflexivity. Qed.

Example run_binary :
  Demo.run Demo.world_binary [] =
    (inl (UnicodeDecodeError "README.md"),
     {| pkg := []; trace := [EvOpen "README.md"; EvRead "README.md"] |}).
Proof. reflexivity. Qed.

Lemma demo_setup_called :
  In Demo.cfg_ok (setup_args (Demo.events Demo.world_ok [])).
Proof. left. reflexivity. Defined.

(** C4 as stated fails: in a checkout without README.md the run makes no
    call of [setup], so it is not true that every run is one call of
    [setup] with literal arguments. *)
Lemma missing_readme_run_makes_no_call :
  setup_args (Demo.events Demo.world_missing []) = [] /\
  ~ every_run_one_literal_call Demo.find_packages Demo.setup
      Demo.locale_encoding Demo.decode.
Proof.
  split; [reflexivity|].
  intros [cfg H]. specialize (H Demo.world_missing []). discriminate H.
Qed.

Example run_crlf :
  setup_args (Demo.events Demo.world_crlf []) =
    [config ("# agent-os" ++ String "010" "text") ["agent_os"]].
Proof. reflexivity. Qed.

Example run_latin1 :
  setup_args (Demo.events Demo.world_latin1 []) =
    [config Demo.cafe_misread ["agent_os"]].
Proof. reflexivity. Qed.

(** C5 as stated fails: the data given to [setup] are not all literals.
    Two checkouts with different README.md files give [setup] different
    configurations. *)
Lemma readme_text_reaches_setup :
  setup_args (Demo.events Demo.world_ok []) =
    [config "# agent-os" ["agent_os"]] /\
  setup_args (Demo.events Demo.world_utf8_mode []) =
    [config Demo.cafe_utf8 ["agent_os"]] /\
  ~ only_literal_data Demo.find_packages Demo.setup
      Demo.locale_encoding Demo.decode.
Proof.
  split; [reflexivity|]. split; [reflexivity|].
  intros [cfg0 H].
  pose proof (H Demo.world_ok [] _ (or_introl eq_refl)) as H1.
  pose proof (H Demo.world_utf8_mode [] _ (or_introl eq_refl)) as H2.
  rewrite <- H2 in H1. apply (f_equal long_description) in H1.
  discriminate H1.
Qed.

(** C9 as stated fails: the same README.md and the same layout, and other
    arguments.  With PYTHONUTF8=1 the five bytes are read as UTF-8 and
    [setup] is called; with PYTHONUTF8=0 in the C locale they are not ASCII,
    [read] raises and [setup] is not called. *)
Lemma same_readme_other_locale_other_arguments :
  disk Demo.world_utf8_mode "README.md" = disk Demo.world_c_locale "README.md" /\
  layout Demo.world_utf8_mode = layout Demo.world_c_locale /\
  setup_args (Demo.events Demo.world_utf8_mode []) =
    [config Demo.cafe_utf8 ["agent_os"]] /\
  setup_args (Demo.events Demo.world_c_locale []) = [] /\
  ~ args_settled_by_readme_and_layout Demo.find_packages Demo.setup
      Demo.locale_encoding Demo.decode.
Proof.
  repeat (split; [reflexivity|]).
  intros H.
  specialize (H Demo.world_utf8_mode Demo.world_c_locale [] []
                eq_refl eq_refl).
  discriminate H.
Qed.

Local Abbreviation fs := Demo.fs.
Local Abbreviation readme_readable := Demo.readme_readable.

(** ** The theorems at the concrete runs *)

Lemma build_needs_readme_witness :
  readme_readable Demo.world_ok = true /\
  exists e, Demo.outcome Demo.world_missing [] = inl e /\
            is_read_failure e = true /\
            read_text (fs Demo.world_missing "README.md") "README.md" = inl e.
Proof.
  split.
  - apply (proj1 (build_needs_readme Demo.Layout Demo.PkgState
                    Demo.find_packages Demo.setup
                    Demo.Encoding Demo.locale_encoding Demo.decode
                    Demo.world_ok [])).
    reflexivity.
  - apply (proj1 (proj2 (build_needs_readme Demo.Layout Demo.PkgState
                           Demo.find_packages Demo.setup
                           Demo.Encoding Demo.locale_encoding Demo.decode
                           Demo.world_missing []))).
    reflexivity.
Defined.

Lemma unreadable_readme_setup_never_called_witness :
  readme_readable Demo.world_binary = false /\
  exists e, read_text (fs Demo.world_binary "README.md") "README.md" = inl e /\
            is_read_failure e = true /\
            Demo.outcome Demo.world_binary [Demo.cfg_ok] = inl e /\
            setup_calls (Demo.events Demo.world_binary [Demo.cfg_ok]) = [] /\
            setup_args (Demo.events Demo.world_binary [Demo.cfg_ok]) = [] /\
            ~ In EvFindPackages (Demo.events Demo.world_binary [Demo.cfg_ok]) /\
            Demo.final_pkg Demo.world_binary [Demo.cfg_ok] = [Demo.cfg_ok].
Proof.
  split; [reflexivity|].
  apply (unreadable_readme_setup_never_called Demo.Layout Demo.PkgState
           Demo.find_packages Demo.setup
           Demo.Encoding Demo.locale_encoding Demo.decode
           Demo.world_binary [Demo.cfg_ok]).
  reflexivity.
Defined.

Lemma setup_arguments_settled_by_bytes_locale_layout_witness :
  disk Demo.world_ok "README.md" = disk Demo.world_elsewhere "README.md" /\
  Demo.locale_encoding (environ Demo.world_ok) =
    Demo.locale_encoding (environ Demo.world_elsewhere) /\
  layout Demo.world_ok = layout Demo.world_elsewhere /\
  environ Demo.world_ok "LANG" <> environ Demo.world_elsewhere "LANG" /\
  clock Demo.world_ok <> clock Demo.world_elsewhere /\
  Demo.events Demo.world_ok [] = Demo.events Demo.world_elsewhere [Demo.cfg_ok] /\
  setup_args (Demo.events Demo.world_ok []) =
    setup_args (Demo.events Demo.world_elsewhere [Demo.cfg_ok]).
Proof.
  split; [reflexivity|]. split; [reflexivity|]. split; [reflexivity|].
  split; [discriminate|]. split; [discriminate|].
  apply (setup_arguments_settled_by_bytes_locale_layout
           Demo.Layout Demo.PkgState Demo.find_packages Demo.setup
           Demo.Encoding Demo.locale_encoding Demo.decode
           Demo.world_ok Demo.world_elsewhere [] [Demo.cfg_ok]);
    reflexivity.
Defined.

Lemma one_dependency_pyyaml_ge_6_0_witness :
  In Demo.cfg_ok (setup_args (Demo.events Demo.world_ok [])) /\
  install_requires Demo.cfg_ok = ["pyyaml>=6.0"].
Proof.
  split; [exact demo_setup_called|].
  exact (proj1 (one_dependency_pyyaml_ge_6_0 Demo.Layout Demo.PkgState
                  Demo.find_packages Demo.setup
           Demo.Encoding Demo.locale_encoding Demo.decode
           Demo.world_ok [] Demo.cfg_ok
                  demo_setup_called)).
Defined.

Lemma python_requires_lower_bound_only_witness :
  In Demo.cfg_ok (setup_args (Demo.events Demo.world_ok [])) /\
  exists spec,
    Pep440.parse_specifier_set (python_requires Demo.cfg_ok) = Some spec /\
    Pep440.least_admitted spec [3; 8] /\
    (forall v v', Pep440.satisfies spec v = true -> Pep440.release_le v v' ->
                  Pep440.satisfies spec v' = true) /\
    ~ Pep440.bounded_above spec.
Proof.
  split; [exact demo_setup_called|].
  exact (python_requires_lower_bound_only Demo.Layout Demo.PkgState
           Demo.find_packages Demo.setup
           Demo.Encoding Demo.locale_encoding Demo.decode
           Demo.world_ok [] Demo.cfg_ok
           demo_setup_called).
Defined.

Lemma metadata_literals_and_computed_witness :
  In Demo.cfg_ok (setup_args (Demo.events Demo.world_ok [])) /\
  description Demo.cfg_ok =
    "Canonical naming and discovery system for AI agents" /\
  long_description_content_type Demo.cfg_ok = "text/markdown" /\
  packages Demo.cfg_ok = Demo.find_packages (layout Demo.world_ok) /\
  Demo.final_pkg Demo.world_ok [] = [Demo.cfg_ok].
Proof.
  split; [exact demo_setup_called|].
  pose proof (metadata_literals_and_computed Demo.Layout Demo.PkgState
                Demo.find_packages Demo.setup
                Demo.Encoding Demo.locale_encoding Demo.decode
                Demo.world_ok [] Demo.cfg_ok demo_setup_called) as H.
  split; [apply H|]. split; [apply H|]. split; [apply H | reflexivity].
Defined.

Lemma declared_strings_well_formed_witness :
  In Demo.cfg_ok (setup_args (Demo.events Demo.world_ok [])) /\
  Pep508.valid_name (name Demo.cfg_ok) = true /\
  Pep440.valid_version (version Demo.cfg_ok) = true /\
  forallb Pep508.valid_requirement (install_requires Demo.cfg_ok) = true.
Proof.
  split; [exact demo_setup_called|].
  exact (declared_strings_well_formed Demo.Layout Demo.PkgState
           Demo.find_packages Demo.setup
           Demo.Encoding Demo.locale_encoding Demo.decode
           Demo.world_ok [] Demo.cfg_ok
           demo_setup_called).
Defined.

Lemma placeholder_author_url_python_3_8_witness :
  In Demo.cfg_ok (setup_args (Demo.events Demo.world_ok [])) /\
  author Demo.cfg_ok = "Your Name" /\
  url Demo.cfg_ok = "https://github.com/yourusername/agent-os" /\
  python_requires Demo.cfg_ok = ">=3.8" /\
  Pep440.parse_specifier_set (python_requires Demo.cfg_ok) =
    Some [(Pep440.OpGe, [3; 8])].
Proof.
  split; [exact demo_setup_called|].
  exact (placeholder_author_url_python_3_8 Demo.Layout Demo.PkgState
           Demo.find_packages Demo.setup
           Demo.Encoding Demo.locale_encoding Demo.decode
           Demo.world_ok [] Demo.cfg_ok
           demo_setup_called).
Defined.

End SetupPyFacts.

(** ** The parsers on sample strings *)

Module ParserTests.
Import Pep440 Pep508.

Example split_dots : Chars.split_on "." "3.12.1" = ["3"; "12"; "1"].
Proof. reflexivity. Qed.

Example release_3_12_1 : parse_release "3.12.1" = Some [3; 12; 1].
Proof. reflexivity. Qed.

Example release_rejects_empty_segment : parse_release "3..1" = None.
Proof. reflexivity. Qed.

Example release_rejects_letters : valid_version "one.two" = false.
Proof. reflexivity. Qed.

Example padding : cmp_release [3; 8] [3; 8; 0] = Eq.
Proof. reflexivity. Qed.

Example py312_after_py38 : cmp_release [3; 12] [3; 8] = Gt.
Proof. reflexivity. Qed.

Example range : parse_specifier_set ">=3.8,<4" = Some [(OpGe, [3; 8]); (OpLt, [4])].
Proof. reflexivity. Qed.

Example range_excludes_4 : satisfies [(OpGe, [3; 8]); (OpLt, [4])] [4; 0] = false.
Proof. reflexivity. Qed.

Example name_rejects_trailing_dash : valid_name "agent-" = false.
Proof. reflexivity. Qed.

Example name_rejects_space : valid_name "agent os" = false.
Proof. reflexivity. Qed.

Example requirement_rejects_bad_operator : valid_requirement "pyyaml=>6.0" = false.
Proof. reflexivity. Qed.

Example bare_requirement :
  parse_requirement "pyyaml" = Some {| req_name := "pyyaml"; req_spec := [] |}.
Proof. reflexivity. Qed.

End ParserTests.

(** ** More on the runs of the script

    When the build succeeds, how it can fail, and which interpreters the
    declared constraint lets in. *)

Module SetupPyRuns.
Import SetupPy.

(** A packaging tool that refuses a distribution without packages. *)
Module Strict.

Definition setup (cfg : Config) (p : Demo.PkgState)
  : (exn + unit) * Demo.PkgState :=
  match packages cfg with
  | [] => (inl (DistutilsError "no packages"), p)
  | _ => (inr tt, cfg :: p)
  end.

(** A checkout with a README and no package directory. *)
Definition world_no_packages : World Demo.Layout :=
  {| disk := Demo.only_readme "# agent-os";
     layout := [];
     environ := Demo.no_environ;
     clock := 0;
     seed := 0 |}.

Definition cfg_no_packages : Config := config "# agent-os" [].

End Strict.

Section Runs.

Variable Layout : Type.
Variable PkgState : Type.
Variable find_packages : Layout -> list string.
Variable setup : Config -> PkgState -> (exn + unit) * PkgState.
Variable Encoding : Type.
Variable locale_encoding : (string -> option string) -> Encoding.
Variable decode : Encoding -> bytes -> option string.

Local Abbreviation fs := (SetupPy.fs (Layout:=Layout) locale_encoding decode).
Local Abbreviation outcome :=
  (SetupPy.outcome find_packages setup locale_encoding decode).
Local Abbreviation events :=
  (SetupPy.events find_packages setup locale_encoding decode).
Local Abbreviation final_pkg :=
  (SetupPy.final_pkg find_packages setup locale_encoding decode).

(** X1: the build succeeds exactly when README.md is a readable text file and
    [setup], given the script's configuration on that text and on the
    packages found, succeeds. *)
Theorem build_succeeds_iff (w : World Layout) (p : PkgState) :
  outcome w p = inr tt <->
  exists t, fs w "README.md" = Some (Text t) /\
            fst (setup (config t (find_packages (layout w))) p) = inr tt.
Proof.
  unfold SetupPy.outcome. rewrite SetupPyFacts.run_spec. unfold read_text.
  destruct (fs w "README.md") as [[t| | |]|]; simpl; split;
    try discriminate;
    try (intros [t' [Ht _]]; discriminate Ht).
  - intros H. now exists t.
  - intros [t' [Ht H]]. now injection Ht as <-.
Qed.

(** X2: a build fails in one of two ways.  Either reading README.md raised: the
    run ends with that exception, [setup] was not called and the packaging
    state is untouched.  Or README.md was read and [setup], called once with
    the script's configuration, raised: the run ends with the exception of
    [setup] and in the state [setup] left.  The script raises nothing of its
    own and catches nothing. *)
Theorem failure_is_read_or_setup (w : World Layout) (p : PkgState) (e : exn) :
  outcome w p = inl e ->
  (read_text (fs w "README.md") "README.md" = inl e /\
   is_read_failure e = true /\
   setup_args (events w p) = [] /\
   final_pkg w p = p)
  \/
  (exists t, fs w "README.md" = Some (Text t) /\
             setup (config t (find_packages (layout w))) p
               = (inl e, final_pkg w p) /\
             setup_args (events w p) = [config t (find_packages (layout w))]).
Proof.
  unfold SetupPy.outcome, SetupPy.events, SetupPy.final_pkg.
  rewrite SetupPyFacts.run_spec. unfold read_text.
  destruct (fs w "README.md") as [[t| | |]|]; simpl; intros H;
    try (left; injection H as <-; repeat split; reflexivity).
  right. exists t. repeat split.
  destruct (setup _ p) as [r q]; simpl in *. now subst r.
Qed.

(** The segments of a release against 3.8, one at a time. *)
Lemma cmp_with_3_8 (x y : nat) (rest : Pep440.release) :
  Pep440.cmp_release (x :: y :: rest) [3; 8] =
  match Nat.compare x 3 with
  | Eq => match Nat.compare y 8 with
          | Eq => Pep440.cmp_release rest []
          | c => c
          end
  | c => c
  end.
Proof. reflexivity. Qed.

(** X4: the interpreters the declared constraint lets in: a release x.y... is
    admitted by [python_requires] exactly when x is above 3, or x is 3 and y
    is at least 8.  So 3.7 is refused, and 3.8, 3.12 and 4.0 are admitted. *)
Theorem python_requires_admits (w : World Layout) (p : PkgState) (cfg : Config) :
  In cfg (setup_args (events w p)) ->
  exists spec,
    Pep440.parse_specifier_set (python_requires cfg) = Some spec /\
    forall x y rest,
      Pep440.satisfies spec (x :: y :: rest) = true <->
      3 < x \/ (x = 3 /\ 8 <= y).
Proof.
  intros Hin. apply SetupPyFacts.setup_call_inv in Hin as [t [_ [-> _]]].
  exists [(Pep440.OpGe, [3; 8])]. split; [reflexivity|].
  intros x y rest.
  unfold Pep440.satisfies, Pep440.satisfies_clause. cbn [forallb].
  rewrite cmp_with_3_8.
  destruct (Nat.compare_spec x 3) as [Ex|Lx|Gx].
  - destruct (Nat.compare_spec y 8) as [Ey|Ly|Gy].
    + rewrite Pep440Facts.cmp_nil_r.
      destruct (Pep440.all_zero rest); simpl; split; auto; intros _; right; lia.
    + simpl. split; [discriminate | lia].
    + simpl. split; auto. intros _. right. lia.
  - simpl. split; [discriminate | lia].
  - simpl. split; auto.
Qed.

(** X3: in every call of [setup], [long_description] is what [read]
    returned for README.md in text mode: the bytes of the file decoded in
    the locale's encoding, with CR LF and lone CR turned into LF.  It holds
    no carriage return, and it is the decoded text itself when that has
    none. *)
Theorem long_description_universal_newlines
    (w : World Layout) (p : PkgState) (cfg : Config) :
  In cfg (setup_args (events w p)) ->
  exists b d,
    disk w "README.md" = Some (File b) /\
    decode (locale_encoding (environ w)) b = Some d /\
    long_description cfg = universal_newlines d /\
    Chars.all_chars not_cr (long_description cfg) = true /\
    (Chars.all_chars not_cr d = true -> long_description cfg = d).
Proof.
  intros Hin.
  apply SetupPyFacts.setup_call_inv in Hin as [t [Ht [-> _]]].
  apply SetupPyFacts.readme_text_inv in Ht as [b [d [Hb [Hd ->]]]].
  exists b, d. cbn [long_description config].
  repeat split; auto.
  - apply SetupPyFacts.universal_newlines_no_cr.
  - apply SetupPyFacts.universal_newlines_id.
Qed.

End Runs.

(** ** At concrete runs *)

Lemma failure_is_read_or_setup_witness :
  SetupPy.outcome Demo.find_packages Strict.setup
    Demo.locale_encoding Demo.decode Strict.world_no_packages []
    = inl (DistutilsError "no packages") /\
  exists t, Demo.fs Strict.world_no_packages "README.md" = Some (Text t) /\
            setup_args (SetupPy.events Demo.find_packages Strict.setup
                          Demo.locale_encoding Demo.decode
                          Strict.world_no_packages [])
              = [config t []].
Proof.
  split; [reflexivity|].
  destruct (failure_is_read_or_setup Demo.Layout Demo.PkgState
              Demo.find_packages Strict.setup
              Demo.Encoding Demo.locale_encoding Demo.decode
              Strict.world_no_packages []
              (DistutilsError "no packages") eq_refl)
    as [[Hr _] | [t [Ht [_ Ha]]]].
  - discriminate Hr.
  - exists t. split; [exact Ht | exact Ha].
Defined.

Lemma python_requires_admits_witness :
  In Demo.cfg_ok (setup_args (Demo.events Demo.world_ok [])) /\
  exists spec,
    Pep440.parse_specifier_set (python_requires Demo.cfg_ok) = Some spec /\
    forall x y rest,
      Pep440.satisfies spec (x :: y :: rest) = true <->
      3 < x \/ (x = 3 /\ 8 <= y).
Proof.
  split; [exact SetupPyFacts.demo_setup_called|].
  exact (python_requires_admits Demo.Layout Demo.PkgState
           Demo.find_packages Demo.setup
           Demo.Encoding Demo.locale_encoding Demo.decode
           Demo.world_ok [] Demo.cfg_ok
           SetupPyFacts.demo_setup_called).
Defined.

(** What [setup] is given in [Demo.world_crlf]: one line feed where the
    file has CR LF. *)
Definition cfg_crlf : Config :=
  config ("# agent-os" ++ String "010" "text") ["agent_os"].

Lemma long_description_universal_newlines_witness :
  In cfg_crlf (setup_args (Demo.events Demo.world_crlf [])) /\
  exists b d,
    disk Demo.world_crlf "README.md" = Some (File b) /\
    Demo.decode (Demo.locale_encoding (environ Demo.world_crlf)) b = Some d /\
    long_description cfg_crlf = universal_newlines d /\
    Chars.all_chars not_cr (long_description cfg_crlf) = true /\
    (Chars.all_chars not_cr d = true -> long_description cfg_crlf = d).
Proof.
  assert (Hin : In cfg_crlf (setup_args (Demo.events Demo.world_crlf [])))
    by (left; reflexivity).
  split; [exact Hin|].
  exact (long_description_universal_newlines Demo.Layout Demo.PkgState
           Demo.find_packages Demo.setup
           Demo.Encoding Demo.locale_encoding Demo.decode
           Demo.world_crlf [] cfg_crlf Hin).
Defined.

Example crlf_is_translated :
  long_description cfg_crlf <> "# agent-os" ++ String "013" (String "010" "text").
Proof. discriminate. Qed.

Example py37_refused : Pep440.satisfies [(Pep440.OpGe, [3; 8])] [3; 7; 17] = false.
Proof. reflexivity. Qed.

Example py312_admitted : Pep440.satisfies [(Pep440.OpGe, [3; 8])] [3; 12; 1] = true.
Proof. reflexivity. Qed.

Example strict_setup_failure_keeps_state :
  SetupPy.run Demo.find_packages Strict.setup
    Demo.locale_encoding Demo.decode Strict.world_no_packages [] =
    (inl (DistutilsError "no packages"),
     {| pkg := []; trace := full_events Strict.cfg_no_packages |}).
Proof. reflexivity. Qed.

End SetupPyRuns.
